(** * passport-slack: the Slack OAuth 2.0 strategy (lib/passport-slack/strategy.js)

    A shallow embedding of [Strategy], its [getOAuthAccessToken] override,
    [userProfile], [get] and [authorizationParams], and the properties of
    the token exchange, the profile fetch and the authorization parameters.

    JavaScript values are an inductive type whose objects are finite maps
    from property names to values.  Functions that take a Node-style
    callback are written in continuation-passing style over a monad that
    threads the strategy instance ([this]) and carries thrown exceptions. *)

From stdpp Require Import gmap strings list fin_maps pretty.

Set Warnings "-register-all".

(** ** JavaScript values *)

(** IEEE doubles are kept abstract: the strategy only tests a number for
    truthiness and converts it to a string. *)
Class JSNumber := {
  number : Type;
  num_truthy : number -> bool;
  num_to_string : number -> string }.

Section Values.
Context {num : JSNumber}.

(** The values that reach the strategy: what [JSON.parse] and the OAuth2
    client produce, [undefined], and [Error] objects (thrown or handed over
    as the [err] argument of a callback). *)
Inductive val : Type :=
  | VUndefined
  | VNull
  | VBool (b : bool)
  | VNum (n : number)
  | VStr (s : string)
  | VArr (elems : list val)
  | VObj (props : gmap string val)
  | VError (name message : string).

(** A completion: a normal result, or a thrown value. *)
Inductive completion (A : Type) : Type :=
  | Normal (a : A)
  | Throw (e : val).
Global Arguments Normal {A} a.
Global Arguments Throw {A} e.

(** [ToBoolean]: what [if (v)], [!v] and [v || w] test. *)
Definition truthy (v : val) : bool :=
  match v with
  | VUndefined | VNull => false
  | VBool b => b
  | VNum n => num_truthy n
  | VStr s => negb (String.eqb s "")
  | VArr _ | VObj _ | VError _ _ => true
  end.

(** [a || b] on values that are already evaluated (reading the right
    operand has no effect in any use the strategy makes of it). *)
Definition js_or (a b : val) : val := if truthy a then a else b.

Definition TypeError (message : string) : val := VError "TypeError" message.

Definition nullish_name (v : val) : string :=
  match v with VNull => "null" | _ => "undefined" end.

(** [v.k] for a property name [k] that no built-in prototype defines (every
    name the strategy reads is such a name): the own property of an object,
    [undefined] on anything else, a TypeError on [undefined] and [null]. *)
Definition get_prop (v : val) (k : string) : completion val :=
  match v with
  | VUndefined | VNull =>
      Throw (TypeError ("Cannot read properties of " +:+ nullish_name v
                        +:+ " (reading '" +:+ k +:+ "')"))
  | VObj m => Normal (default VUndefined (m !! k))
  | VError n msg =>
      Normal (if String.eqb k "name" then VStr n
              else if String.eqb k "message" then VStr msg
              else VUndefined)
  | VBool _ | VNum _ | VStr _ | VArr _ => Normal VUndefined
  end.

(** [v.k = x] in sloppy mode (the file has no strict-mode directive): the
    object with [k] written, a TypeError on [undefined] and [null], and no
    effect on a primitive.  Arrays and errors carry no named properties in
    this value model, so a write to them is not recorded. *)
Definition set_prop (v : val) (k : string) (x : val) : completion val :=
  match v with
  | VUndefined | VNull =>
      Throw (TypeError ("Cannot set properties of " +:+ nullish_name v
                        +:+ " (setting '" +:+ k +:+ "')"))
  | VObj m => Normal (VObj (<[k := x]> m))
  | VBool _ | VNum _ | VStr _ | VArr _ | VError _ _ => Normal v
  end.

Definition completion_bind {A B} (c : completion A) (f : A -> completion B)
  : completion B :=
  match c with Normal a => f a | Throw e => Throw e end.

(** [Array.prototype.join] over an element conversion [conv]: [undefined]
    and [null] elements contribute the empty string. *)
Definition join_with (conv : val -> completion string) (sep : string)
  : list val -> completion string :=
  fix join (l : list val) : completion string :=
    match l with
    | [] => Normal ""
    | x :: r =>
        completion_bind
          (match x with VUndefined | VNull => Normal "" | _ => conv x end)
          (fun sx =>
             match r with
             | [] => Normal sx
             | _ :: _ => completion_bind (join r)
                           (fun sr => Normal (sx +:+ sep +:+ sr))
             end)
    end.

(** [ToString], as a template literal, [JSON.parse] and [join] apply it.
    An object without an own [toString] prints as [[object Object]]; with
    one (never callable in data) the conversion to a primitive fails. *)
Fixpoint ToString (v : val) : completion string :=
  match v with
  | VUndefined => Normal "undefined"
  | VNull => Normal "null"
  | VBool b => Normal (if b then "true" else "false")
  | VNum n => Normal (num_to_string n)
  | VStr s => Normal s
  | VArr l => join_with ToString "," l
  | VObj m =>
      if decide (is_Some (m !! "toString"))
      then Throw (TypeError "Cannot convert object to primitive value")
      else Normal "[object Object]"
  | VError n msg =>
      Normal (if String.eqb n "" then msg
              else if String.eqb msg "" then n
              else n +:+ ": " +:+ msg)
  end.

(** [a.join(sep)] on an array. *)
Definition Array_join (l : list val) (sep : string) : completion string :=
  join_with ToString sep l.

End Values.

(** ** Effects: the strategy instance, thrown exceptions, callbacks *)

Section Effects.
Context {num : JSNumber}.

(** A call that leaves the strategy: recorded by the scripted collaborators
    of the examples below. *)
Inductive event : Type :=
  | Call (target : string) (args : list val).

(** [this] holds the own data properties of the one strategy instance that
    the application registers; every login attempt runs against it. *)
Record world : Type := World {
  this : gmap string val;
  trace : list event }.

Definition M (A : Type) : Type := world -> completion A * world.

Global Instance M_ret : MRet M := fun A a w => (Normal a, w).

Global Instance M_bind : MBind M := fun A B f m w =>
  match m w with
  | (Normal a, w') => f a w'
  | (Throw e, w') => (Throw e, w')
  end.

Definition lift {A} (c : completion A) : M A := fun w => (c, w).

(** [try { body } catch (e) { handler }] *)
Definition try_catch {A} (body : M A) (handler : val -> M A) : M A :=
  fun w =>
    match body w with
    | (Normal a, w') => (Normal a, w')
    | (Throw e, w') => handler e w'
    end.

(** [this.k] and [this.k = v] *)
Definition get_this (k : string) : M val :=
  fun w => (Normal (default VUndefined (this w !! k)), w).

Definition set_this (k : string) (v : val) : M unit :=
  fun w => (Normal tt, World (<[k := v]> (this w)) (trace w)).

Definition emit (e : event) : M unit :=
  fun w => (Normal tt, World (this w) (trace w ++ [e])).

(** A JavaScript function called with an argument list: a parameter without
    an argument is [undefined]. *)
Definition callback : Type := list val -> M unit.

Definition arg (i : nat) (args : list val) : val :=
  default VUndefined (args !! i).

End Effects.

(** ** External collaborators

    The generic OAuth2 client ([passport-oauth]) and [JSON.parse] are not
    part of the strategy; it only calls them. *)
Class Host {num : JSNumber} := {
  (** the type of the application's [verify] function, passed through *)
  verify_fn : Type;
  (** [JSON.parse] on a string *)
  JSON_parse : string -> completion val;
  (** [this._oauth2._request(method, url, headers, post_body, access_token, callback)] *)
  _request : string -> string -> val -> string -> string -> callback -> M unit;
  (** the client's own [getOAuthAccessToken(code, params, callback)], saved
      by the constructor before it installs the override *)
  _oauth2GetOAuthAccessToken : val -> val -> callback -> M unit;
  (** the base constructor, [OAuth2Strategy.call(this, options, verify)] *)
  OAuth2Strategy : val -> verify_fn -> M unit }.

(** ** The strategy *)

Section Strategy.
Context {num : JSNumber} {host : Host}.

(** The callback that the override hands to the client's token exchange
    (strategy.js, lines 61-67). *)
Definition exchange_callback (callback : callback) (args : list val) : M unit :=
  let err := arg 0 args in
  let accessToken := arg 1 args in
  let refreshToken := arg 2 args in
  let params := arg 3 args in
  if truthy err then callback [err]
  else
    set_this "params" params;;
    authed_user ← lift (get_prop params "authed_user");
    accessToken ← lift (get_prop authed_user "access_token");
    callback [VNull; accessToken; refreshToken; params].

(** [this._oauth2.getOAuthAccessToken], as the constructor replaces it. *)
Definition getOAuthAccessToken (code params : val) (callback : callback) : M unit :=
  _oauth2GetOAuthAccessToken code params (exchange_callback callback).

(** [Strategy(options, verify)] up to the installation of the override,
    which is [getOAuthAccessToken] above. *)
Definition Strategy (options : val) (verify : verify_fn) : M unit :=
  let options := js_or options (VObj ∅) in
  tokenURL ← lift (get_prop options "tokenURL");
  options ← lift (set_prop options "tokenURL"
                    (js_or tokenURL (VStr "https://slack.com/api/oauth.v2.access")));
  authorizationURL ← lift (get_prop options "authorizationURL");
  options ← lift (set_prop options "authorizationURL"
                    (js_or authorizationURL (VStr "https://slack.com/oauth/v2/authorize")));
  team ← lift (get_prop options "team");
  set_this "_team" team;;
  user_scope ← lift (get_prop options "user_scope");
  set_this "_user_scope" user_scope;;
  OAuth2Strategy options verify;;
  name ← lift (get_prop options "name");
  set_this "name" (js_or name (VStr "slack")).

(** [Strategy.prototype.get] *)
Definition get (url : string) (callback : callback) : M unit :=
  _request "GET" url (VObj ∅) "" "" callback.

(** The callback that [userProfile] hands to [get] (lines 92-116). *)
Definition profile_callback (done : callback) (args : list val) : M unit :=
  let err := arg 0 args in
  let body := arg 1 args in
  if truthy err then done [err]
  else
    try_catch
      (text ← lift (ToString body);
       profile ← lift (JSON_parse text);
       ok ← lift (get_prop profile "ok");
       if negb (truthy ok) then
         error ← lift (get_prop profile "error");
         if truthy error then done [error]
         else done [VNull; profile]
       else
         profile ← lift (set_prop profile "provider" (VStr "Slack"));
         user ← lift (get_prop profile "user");
         id ← lift (get_prop user "id");
         profile ← lift (set_prop profile "id" id);
         user ← lift (get_prop profile "user");
         real_name ← lift (get_prop user "real_name");
         profile ← lift (set_prop profile "displayName" real_name);
         user ← lift (get_prop profile "user");
         user_profile ← lift (get_prop user "profile");
         email ← lift (get_prop user_profile "email");
         profile ← lift (set_prop profile "email" email);
         done [VNull; profile])
      (fun e => done [e]).

(** The template literal of line 90. *)
Definition profileUrl (id token : string) : string :=
  "https://slack.com/api/users.info?user=" +:+ id +:+ "&token=" +:+ token.

(** [Strategy.prototype.userProfile] *)
Definition userProfile (accessToken : val) (done : callback) : M unit :=
  params ← get_this "params";
  authed_user ← lift (get_prop params "authed_user");
  id ← lift (get_prop authed_user "id");
  id ← lift (ToString id);
  params ← get_this "params";
  access_token ← lift (get_prop params "access_token");
  access_token ← lift (ToString access_token);
  get (profileUrl id access_token) (profile_callback done).

(** [Strategy.prototype.authorizationParams] *)
Definition authorizationParams (options : val) : M val :=
  let params : gmap string val := ∅ in
  options_team ← lift (get_prop options "team");
  team ← (if truthy options_team then mret options_team else get_this "_team");
  let params := if truthy team then <["team" := team]> params else params in
  user_scope ← get_this "_user_scope";
  if truthy user_scope then
    user_scope ← lift (match user_scope with
                       | VArr elems =>
                           completion_bind (Array_join elems " ")
                             (fun s => Normal (VStr s))
                       | _ => Normal user_scope
                       end);
    mret (VObj (<["user_scope" := user_scope]> params))
  else mret (VObj params).

End Strategy.

(** ** Vocabulary of the statements *)

Section Vocabulary.
Context {num : JSNumber} {host : Host}.

(** A member chain [v.k1.k2...], as the claims write
    [rawExchangeResponse.authed_user.access_token]. *)
Fixpoint path (v : val) (ks : list string) : completion val :=
  match ks with
  | [] => Normal v
  | k :: ks' => completion_bind (get_prop v k) (fun v' => path v' ks')
  end.

(** The client's token exchange, started in [w] for [code], completes by
    calling its callback with [response], the world then being [w']. *)
Definition exchange_answers (w : world) (code params : val)
    (response : list val) (w' : world) : Prop :=
  forall k : callback,
    _oauth2GetOAuthAccessToken code params k w = k response w'.

(** The transport, asked in [w] for a GET of [url] with no headers, no body
    and no token, completes by calling its callback with [response]. *)
Definition transport_answers (w : world) (url : string)
    (response : list val) (w' : world) : Prop :=
  forall k : callback,
    _request "GET" url (VObj ∅) "" "" k w = k response w'.

(** What a template literal puts in place of [${v.k1.k2...}]: the member
    chain, converted to a string (a string stands for itself). *)
Definition substitution (v : val) (ks : list string) : completion string :=
  completion_bind (path v ks) ToString.

(** The strategy instance holds the raw exchange response [raw], whose
    [authed_user.id] and top-level [access_token] enter a template literal
    as [id] and [token]. *)
Definition stored_exchange (w : world) (raw : val) (id token : string) : Prop :=
  this w !! "params" = Some raw /\
  substitution raw ["authed_user"; "id"] = Normal id /\
  substitution raw ["access_token"] = Normal token.

(** The stored [userScope] of the configuration: unset, one string, or an
    ordered sequence of strings. *)
Inductive userScope : Type :=
  | ScopeUnset
  | ScopeString (s : string)
  | ScopeList (l : list string).

Definition userScope_val (u : userScope) : val :=
  match u with
  | ScopeUnset => VUndefined
  | ScopeString s => VStr s
  | ScopeList l => VArr (VStr <$> l)
  end.

(** The [user_scope] parameter for a stored [userScope]: the sequence joined
    by single spaces, the string as it is. *)
Definition userScope_param (u : userScope) : string :=
  match u with
  | ScopeUnset => ""
  | ScopeString s => s
  | ScopeList l => String.concat " " l
  end.

(** The four scopes that the constructor's documentation names as the
    default of [options.scope]. *)
Definition documented_default_scope : val :=
  VArr [VStr "identity.basic"; VStr "identity.email";
        VStr "identity.avatar"; VStr "identity.team"].

(** The profile that lines 105-108 make of a payload and the three values
    read from its [user]. *)
Definition normalized_profile (payload : gmap string val)
    (id real_name email : val) : gmap string val :=
  <["email" := email]>
    (<["displayName" := real_name]>
       (<["id" := id]> (<["provider" := VStr "Slack"]> payload))).

(** The options as the constructor leaves them for the base constructor
    (lines 49-51). *)
Definition constructed_options (options : gmap string val) : gmap string val :=
  <["authorizationURL" :=
      js_or (default VUndefined (options !! "authorizationURL"))
            (VStr "https://slack.com/oauth/v2/authorize")]>
    (<["tokenURL" :=
         js_or (default VUndefined (options !! "tokenURL"))
               (VStr "https://slack.com/api/oauth.v2.access")]> options).

(** The world in which the base constructor starts: [_team] and
    [_user_scope] are written (lines 52-53). *)
Definition before_base (options : gmap string val) (w : world) : world :=
  World (<["_user_scope" := default VUndefined (options !! "user_scope")]>
           (<["_team" := default VUndefined (options !! "team")]> (this w)))
        (trace w).

(** [this.name] as line 56 sets it. *)
Definition constructed_name (options : gmap string val) : val :=
  js_or (default VUndefined (options !! "name")) (VStr "slack").

End Vocabulary.

(** ** Scripted collaborators for the worked examples *)

(** Numbers as integers: enough for the examples, which hold no fraction. *)
Definition Z_number : JSNumber := {|
  number := Z;
  num_truthy := fun z => negb (Z.eqb z 0);
  num_to_string := pretty |}.

Section Scripted.
Local Existing Instance Z_number.

(** A continuation that records the arguments it is called with. *)
Definition record (name : string) : callback :=
  fun args => emit (Call name args).

(** A host whose token exchange answers by [exchange code], whose transport
    answers by [respond url], and whose [JSON.parse] is [parse]; each call
    is recorded. *)
Definition scripted (parse : string -> completion val)
    (exchange : val -> list val) (respond : string -> list val) : Host := {|
  verify_fn := unit;
  JSON_parse := parse;
  _request := fun method url headers post_body access_token k =>
    emit (Call "_request" [VStr method; VStr url; headers;
                           VStr post_body; VStr access_token]);;
    k (respond url);
  _oauth2GetOAuthAccessToken := fun code params k =>
    emit (Call "getOAuthAccessToken" [code; params]);;
    k (exchange code);
  OAuth2Strategy := fun options _ => emit (Call "OAuth2Strategy" [options]) |}.

Definition SyntaxError : val :=
  VError "SyntaxError" "Unexpected token in JSON".

(** The exchange response of the end-to-end scenario. *)
Definition raw_U1 : val :=
  VObj {[ "access_token" := VStr "bot-1";
          "authed_user" := VObj {[ "id" := VStr "U1";
                                   "access_token" := VStr "user-1" ]} ]}.

Definition raw_U2 : val :=
  VObj {[ "access_token" := VStr "bot-2";
          "authed_user" := VObj {[ "id" := VStr "U2";
                                   "access_token" := VStr "user-2" ]} ]}.

(** The codes [code-1] and [code-2] are exchanged for [raw_U1] and [raw_U2];
    any other code fails. *)
Definition exchange_by_code (code : val) : list val :=
  match code with
  | VStr "code-1" => [VNull; VStr "bot-1"; VUndefined; raw_U1]
  | VStr "code-2" => [VNull; VStr "bot-2"; VUndefined; raw_U2]
  | _ => [VError "Error" "invalid_code"]
  end.

(** The [users.info] payload of the end-to-end scenario. *)
Definition payload_Ada : gmap string val :=
  {[ "ok" := VBool true;
     "user" := VObj {[ "id" := VStr "U1";
                       "real_name" := VStr "Ada";
                       "profile" := VObj {[ "email" := VStr "a@x.com" ]} ]} ]}.

Definition payload_not_found : gmap string val :=
  {[ "ok" := VBool false; "error" := VStr "user_not_found" ]}.

Definition payload_not_ok : gmap string val :=
  {[ "ok" := VBool false; "warning" := VStr "missing_charset" ]}.

Definition payload_empty_error : gmap string val :=
  {[ "ok" := VBool false; "error" := VStr "" ]}.

(** The bodies that carry these payloads. *)
Definition quote_mark : Ascii.ascii := Ascii.ascii_of_nat 34.

Definition quoted (s : string) : string :=
  String quote_mark (s +:+ String quote_mark "").

Definition body_Ada : string :=
  "{" +:+ quoted "ok" +:+ ":true," +:+ quoted "user" +:+ ":{"
  +:+ quoted "id" +:+ ":" +:+ quoted "U1" +:+ ","
  +:+ quoted "real_name" +:+ ":" +:+ quoted "Ada" +:+ ","
  +:+ quoted "profile" +:+ ":{" +:+ quoted "email" +:+ ":"
  +:+ quoted "a@x.com" +:+ "}}}".

Definition body_not_found : string :=
  "{" +:+ quoted "ok" +:+ ":false," +:+ quoted "error" +:+ ":"
  +:+ quoted "user_not_found" +:+ "}".

Definition body_not_ok : string :=
  "{" +:+ quoted "ok" +:+ ":false," +:+ quoted "warning" +:+ ":"
  +:+ quoted "missing_charset" +:+ "}".

Definition body_empty_error : string :=
  "{" +:+ quoted "ok" +:+ ":false," +:+ quoted "error" +:+ ":"
  +:+ quoted "" +:+ "}".

Definition body_html : string := "<html>502 Bad Gateway</html>".

(** A transport that answers every request with the body [body], and a
    parser that reads that body as [parsed]. *)
Definition answering (body : string) (parsed : completion val) : Host :=
  scripted (fun text => if String.eqb text body then parsed else Throw SyntaxError)
           exchange_by_code
           (fun _ => [VNull; VStr body; VUndefined]).

Definition host_Ada : Host :=
  answering body_Ada (Normal (VObj payload_Ada)).

Definition host_not_found : Host :=
  answering body_not_found (Normal (VObj payload_not_found)).

Definition host_not_ok : Host :=
  answering body_not_ok (Normal (VObj payload_not_ok)).

Definition host_empty_error : Host :=
  answering body_empty_error (Normal (VObj payload_empty_error)).

Definition host_html : Host := answering body_html (Throw SyntaxError).

(** The instance once [raw] has been stored by a token exchange. *)
Definition after_exchange (raw : val) : world :=
  World {[ "params" := raw ]} [].

(** Options with the three required fields and no [scope]. *)
Definition options_without_scope : gmap string val :=
  {[ "clientID" := VStr "123-456-789";
     "clientSecret" := VStr "shhh-its-a-secret";
     "callbackURL" := VStr "https://www.example.net/auth/slack/callback" ]}.

(** The instance before its constructor has run. *)
Definition fresh : world := World ∅ [].

(** The world in which the transport answers a request that was issued in
    [after_exchange raw] for the user [id] with the token [token]. *)
Definition after_request (raw : val) (id token : string) : world :=
  World {[ "params" := raw ]}
        [Call "_request" [VStr "GET"; VStr (profileUrl id token);
                          VObj ∅; VStr ""; VStr ""]].

(** Two logins on the one instance: the exchange of the second completes
    after the exchange of the first and before the first's profile fetch. *)
Definition overlapping_logins {host : Host} : M unit :=
  getOAuthAccessToken (VStr "code-1") (VObj ∅) (record "callback 1");;
  getOAuthAccessToken (VStr "code-2") (VObj ∅) (record "callback 2");;
  userProfile (VStr "user-1") (record "done 1").

(** A transport that reports a connection error, although a body came. *)
Definition ECONNRESET : val := VError "Error" "socket hang up".

Definition host_offline : Host :=
  scripted (fun text => if String.eqb text body_Ada
                        then Normal (VObj payload_Ada) else Throw SyntaxError)
           exchange_by_code
           (fun _ => [ECONNRESET; VStr body_Ada; VUndefined]).

(** An acknowledged payload without [user], and the body [null]. *)
Definition payload_no_user : gmap string val := {[ "ok" := VBool true ]}.

Definition body_no_user : string := "{" +:+ quoted "ok" +:+ ":true}".

Definition host_no_user : Host :=
  answering body_no_user (Normal (VObj payload_no_user)).

Definition host_null : Host := answering "null" (Normal VNull).

(** A continuation that records its call and throws unless it was given an
    error: a [verify] that fails on the profile. *)
Definition verify_failed : val := VError "Error" "verify failed".

Definition fussy (name : string) : callback :=
  fun args =>
    emit (Call name args);;
    if truthy (arg 0 args) then mret tt else lift (Throw verify_failed).

(** A host whose base constructor insists on [clientID], as the generic
    strategy does. *)
Definition clientID_required : val :=
  TypeError "OAuth2Strategy requires a clientID option".

Definition host_strict : Host := {|
  verify_fn := unit;
  JSON_parse := fun _ => Throw SyntaxError;
  _request := fun _ _ _ _ _ k => k [ECONNRESET];
  _oauth2GetOAuthAccessToken := fun _ _ k => k [ECONNRESET];
  OAuth2Strategy := fun options _ =>
    clientID ← lift (get_prop options "clientID");
    if truthy clientID then emit (Call "OAuth2Strategy" [options])
    else lift (Throw clientID_required) |}.

(** Options that restrict the login to one team and ask for user scopes. *)
Definition options_team : gmap string val :=
  {[ "clientID" := VStr "123-456-789";
     "team" := VStr "T0";
     "user_scope" := VArr [VStr "identity.basic"; VStr "identity.email"] ]}.

End Scripted.

(** ** Properties *)

Section Properties.
Context {num : JSNumber} {host : Host}.

Ltac map_lookup :=
  repeat first
    [ rewrite lookup_insert_eq
    | rewrite lookup_insert_ne by congruence
    | rewrite lookup_empty ];
  try reflexivity.

(** *** Member chains *)

Lemma path_cons_inv (v r : val) (k : string) (ks : list string) :
  path v (k :: ks) = Normal r ->
  exists v', get_prop v k = Normal v' /\ path v' ks = Normal r.
Proof.
  simpl. destruct (get_prop v k) as [v'|e] eqn:Hk; simpl; intros Hp.
  - exists v'. split; [reflexivity | exact Hp].
  - discriminate Hp.
Qed.

Lemma path_one_inv (v r : val) (k : string) :
  path v [k] = Normal r -> get_prop v k = Normal r.
Proof.
  intros Hp. apply path_cons_inv in Hp as (v' & Hk & Hr).
  simpl in Hr. congruence.
Qed.

(** *** Token exchange *)

Lemma exchange_callback_error (k : callback) (args : list val) (w : world) :
  truthy (arg 0 args) = true ->
  exchange_callback k args w = k [arg 0 args] w.
Proof. intros Herr. unfold exchange_callback. rewrite Herr. reflexivity. Qed.

(** After a falsy [err] the response is stored first; then the user token
    is read, and the continuation is called unless that read throws. *)
Lemma exchange_callback_success (k : callback)
    (err accessToken refreshToken raw : val) (w : world) :
  truthy err = false ->
  exchange_callback k [err; accessToken; refreshToken; raw] w =
  match path raw ["authed_user"; "access_token"] with
  | Normal user_token =>
      k [VNull; user_token; refreshToken; raw]
        (World (<["params" := raw]> (this w)) (trace w))
  | Throw e => (Throw e, World (<["params" := raw]> (this w)) (trace w))
  end.
Proof.
  intros Herr. unfold exchange_callback, arg. simpl. rewrite Herr.
  unfold mbind, M_bind, set_this, lift, completion_bind.
  destruct (get_prop raw "authed_user") as [authed_user|e]; [|reflexivity].
  destruct (get_prop authed_user "access_token") as [user_token|e];
    reflexivity.
Qed.

(** C1. When the client's token exchange completes without error, the raw
    response is stored in [this.params] and [authed_user.access_token] is
    read from it.  The continuation is then called with [null], that user
    token (whatever token the client passed as [accessToken], the top-level
    one), the refresh token as received and the raw response, in a world
    where [this.params] already holds the raw response.  A raw response
    without [authed_user] makes the read throw: then nothing is delivered. *)
Theorem getOAuthAccessToken_delivers_user_token (code params : val)
    (k : callback) (err accessToken refreshToken raw : val) (w w' : world) :
  exchange_answers w code params [err; accessToken; refreshToken; raw] w' ->
  truthy err = false ->
  getOAuthAccessToken code params k w =
  match path raw ["authed_user"; "access_token"] with
  | Normal user_token =>
      k [VNull; user_token; refreshToken; raw]
        (World (<["params" := raw]> (this w')) (trace w'))
  | Throw e => (Throw e, World (<["params" := raw]> (this w')) (trace w'))
  end.
Proof.
  intros Hans Herr. unfold getOAuthAccessToken.
  rewrite (Hans (exchange_callback k)).
  apply exchange_callback_success. exact Herr.
Qed.

(** *** Profile request *)

Lemma substitution_inv (v : val) (ks : list string) (s : string) :
  substitution v ks = Normal s ->
  exists r : val, path v ks = Normal r /\ ToString r = Normal s.
Proof.
  unfold substitution. destruct (path v ks) as [r|e]; simpl; intros Hs.
  - exists r. split; [reflexivity | exact Hs].
  - discriminate Hs.
Qed.

Lemma userProfile_unfold (accessToken : val) (done : callback)
    (raw : val) (id token : string) (w : world) :
  stored_exchange w raw id token ->
  userProfile accessToken done w =
  get (profileUrl id token) (profile_callback done) w.
Proof.
  intros (Hraw & Hid & Htok).
  apply substitution_inv in Hid as (idv & Hid & Hids).
  apply substitution_inv in Htok as (tokv & Htok & Htoks).
  apply path_cons_inv in Hid as (authed_user & Hau & Hid).
  apply path_one_inv in Hid. apply path_one_inv in Htok.
  unfold userProfile, mbind, M_bind, get_this, lift.
  rewrite Hraw. simpl. rewrite Hau, Hid, Hids, Htok, Htoks. reflexivity.
Qed.

(** C2. With a raw exchange response stored on the instance, [userProfile]
    asks the transport for a GET of
    [https://slack.com/api/users.info?user=<id>&token=<token>], where [<id>]
    is the stored response's [authed_user.id] and [<token>] its top-level
    [access_token], each as the template literal converts it to a string;
    no header, body or token argument goes with the request. *)
Theorem userProfile_request_url (accessToken : val) (done : callback)
    (raw : val) (id token : string) (w : world) :
  this w !! "params" = Some raw ->
  substitution raw ["authed_user"; "id"] = Normal id ->
  substitution raw ["access_token"] = Normal token ->
  userProfile accessToken done w =
  _request "GET"
    ("https://slack.com/api/users.info?user=" +:+ id +:+ "&token=" +:+ token)
    (VObj ∅) "" "" (profile_callback done) w.
Proof.
  intros Hraw Hid Htok.
  rewrite (userProfile_unfold accessToken done raw id token w).
  - reflexivity.
  - repeat split; assumption.
Qed.

(** C10. [userProfile] never reads its [accessToken] argument: with the
    same continuation and the same world (stored response, transport,
    parser) it is the same computation for any two tokens, so the request
    and what reaches the continuation are the same. *)
Theorem userProfile_ignores_accessToken (accessToken1 accessToken2 : val)
    (done : callback) (w : world) :
  userProfile accessToken1 done w = userProfile accessToken2 done w.
Proof. reflexivity. Qed.

(** *** Profile response *)

Lemma profile_callback_transport_error (done : callback) (args : list val)
    (w : world) :
  truthy (arg 0 args) = true ->
  profile_callback done args w = done [arg 0 args] w.
Proof. intros Herr. unfold profile_callback. rewrite Herr. reflexivity. Qed.

Lemma profile_callback_parse_failure (done : callback) (err res e : val)
    (body : string) (w : world) :
  truthy err = false ->
  JSON_parse body = Throw e ->
  profile_callback done [err; VStr body; res] w = done [e] w.
Proof.
  intros Herr Hparse. unfold profile_callback, arg. simpl. rewrite Herr.
  unfold try_catch, mbind, M_bind, lift. simpl. rewrite Hparse. reflexivity.
Qed.

Lemma profile_callback_not_ok (done : callback) (err res payload ok error : val)
    (body : string) (w : world) :
  truthy err = false ->
  JSON_parse body = Normal payload ->
  get_prop payload "ok" = Normal ok ->
  truthy ok = false ->
  get_prop payload "error" = Normal error ->
  profile_callback done [err; VStr body; res] w =
  try_catch (if truthy error then done [error] else done [VNull; payload])
            (fun e => done [e]) w.
Proof.
  intros Herr Hparse Hok Hfalsy Herror.
  unfold profile_callback, arg. simpl. rewrite Herr.
  unfold try_catch, mbind, M_bind, lift. simpl.
  rewrite Hparse, Hok, Hfalsy. simpl. rewrite Herror. reflexivity.
Qed.

(** The profile that lines 105-108 build from a payload. *)
Lemma profile_callback_ok (done : callback) (err res ok uid real_name email : val)
    (payload : gmap string val) (body : string) (w : world) :
  truthy err = false ->
  JSON_parse body = Normal (VObj payload) ->
  payload !! "ok" = Some ok ->
  truthy ok = true ->
  path (VObj payload) ["user"; "id"] = Normal uid ->
  path (VObj payload) ["user"; "real_name"] = Normal real_name ->
  path (VObj payload) ["user"; "profile"; "email"] = Normal email ->
  profile_callback done [err; VStr body; res] w =
  try_catch
    (done [VNull;
           VObj (<["email" := email]>
                   (<["displayName" := real_name]>
                      (<["id" := uid]>
                         (<["provider" := VStr "Slack"]> payload))))])
    (fun e => done [e]) w.
Proof.
  intros Herr Hparse Hok Htruthy Hid Hname Hemail.
  apply path_cons_inv in Hid as (user & Huser & Hid). apply path_one_inv in Hid.
  apply path_cons_inv in Hname as (user' & Huser' & Hname).
  apply path_one_inv in Hname.
  apply path_cons_inv in Hemail as (user'' & Huser'' & Hemail).
  apply path_cons_inv in Hemail as (user_profile & Hprofile & Hemail).
  apply path_one_inv in Hemail.
  assert (user' = user) as -> by congruence.
  assert (user'' = user) as -> by congruence.
  simpl in Huser. injection Huser as Huser.
  unfold profile_callback, arg. simpl. rewrite Herr.
  unfold try_catch, mbind, M_bind, lift. simpl.
  rewrite Hparse. simpl. rewrite Hok. simpl. rewrite Htruthy. simpl.
  rewrite lookup_insert_ne, Huser, Hid by discriminate.
  rewrite !lookup_insert_ne, Huser, Hname by discriminate.
  rewrite !lookup_insert_ne, Huser, Hprofile, Hemail by discriminate.
  reflexivity.
Qed.

(** [userProfile] up to the transport's answer. *)
Lemma userProfile_answered (accessToken : val) (done : callback) (raw : val)
    (id token : string) (response : list val) (w w' : world) :
  stored_exchange w raw id token ->
  transport_answers w (profileUrl id token) response w' ->
  userProfile accessToken done w = profile_callback done response w'.
Proof.
  intros Hstored Hans.
  rewrite (userProfile_unfold accessToken done raw id token w Hstored).
  unfold get. apply Hans.
Qed.

(** C3. When the body parses to a payload whose [ok] is falsy and which has
    no [error] field (the field reads [undefined]), the continuation is
    called with [null] and the parsed payload itself.  The call stands
    inside the [try] block: should the continuation throw, the exception is
    handed to it as an error. *)
Theorem userProfile_not_ok_without_error (accessToken : val) (done : callback)
    (raw : val) (id token body : string) (err res payload ok : val)
    (w w' : world) :
  stored_exchange w raw id token ->
  transport_answers w (profileUrl id token) [err; VStr body; res] w' ->
  truthy err = false ->
  JSON_parse body = Normal payload ->
  path payload ["ok"] = Normal ok ->
  truthy ok = false ->
  path payload ["error"] = Normal VUndefined ->
  userProfile accessToken done w =
  try_catch (done [VNull; payload]) (fun e => done [e]) w'.
Proof.
  intros Hstored Hans Herr Hparse Hok Hfalsy Herror.
  apply path_one_inv in Hok. apply path_one_inv in Herror.
  rewrite (userProfile_answered _ _ _ _ _ _ _ _ Hstored Hans).
  rewrite (profile_callback_not_ok done err res payload ok VUndefined body w')
    by assumption.
  reflexivity.
Qed.

(** C4, as amended. When the body parses to a payload whose [ok] is truthy
    and whose [user] and [user.profile] are present, so that [user.id],
    [user.real_name] and [user.profile.email] can be read, the
    continuation is called with [null] and a profile whose [provider] is
    ['Slack'], whose [id], [displayName] and [email] are those three values,
    and whose every other property is the payload's. *)
Theorem userProfile_normalized_profile (accessToken : val) (done : callback)
    (raw : val) (id token body : string) (err res ok uid real_name email : val)
    (payload : gmap string val) (w w' : world) :
  stored_exchange w raw id token ->
  transport_answers w (profileUrl id token) [err; VStr body; res] w' ->
  truthy err = false ->
  JSON_parse body = Normal (VObj payload) ->
  payload !! "ok" = Some ok ->
  truthy ok = true ->
  path (VObj payload) ["user"; "id"] = Normal uid ->
  path (VObj payload) ["user"; "real_name"] = Normal real_name ->
  path (VObj payload) ["user"; "profile"; "email"] = Normal email ->
  exists profile : gmap string val,
    userProfile accessToken done w =
      try_catch (done [VNull; VObj profile]) (fun e => done [e]) w' /\
    profile !! "provider" = Some (VStr "Slack") /\
    profile !! "id" = Some uid /\
    profile !! "displayName" = Some real_name /\
    profile !! "email" = Some email /\
    forall k : string,
      k ∉ ["provider"; "id"; "displayName"; "email"] ->
      profile !! k = payload !! k.
Proof.
  intros Hstored Hans Herr Hparse Hok Htruthy Hid Hname Hemail.
  eexists. split.
  { rewrite (userProfile_answered _ _ _ _ _ _ _ _ Hstored Hans).
    apply (profile_callback_ok done err res ok uid real_name email payload);
      assumption. }
  repeat split.
  - rewrite !lookup_insert_ne by discriminate. apply lookup_insert_eq.
  - rewrite !lookup_insert_ne by discriminate. apply lookup_insert_eq.
  - rewrite lookup_insert_ne by discriminate. apply lookup_insert_eq.
  - apply lookup_insert_eq.
  - intros k Hk. rewrite !not_elem_of_cons in Hk.
    destruct Hk as (Hp & Hi & Hd & He & _).
    rewrite !lookup_insert_ne by congruence. reflexivity.
Qed.

(** C5, as amended. When the body parses to a payload whose [ok] is falsy
    and whose [error] field is truthy, the continuation is called with that
    field's value as its only argument. *)
Theorem userProfile_not_ok_with_error (accessToken : val) (done : callback)
    (raw : val) (id token body : string) (err res payload ok error : val)
    (w w' : world) :
  stored_exchange w raw id token ->
  transport_answers w (profileUrl id token) [err; VStr body; res] w' ->
  truthy err = false ->
  JSON_parse body = Normal payload ->
  path payload ["ok"] = Normal ok ->
  truthy ok = false ->
  path payload ["error"] = Normal error ->
  truthy error = true ->
  userProfile accessToken done w =
  try_catch (done [error]) (fun e => done [e]) w'.
Proof.
  intros Hstored Hans Herr Hparse Hok Hfalsy Herror Htruthy.
  apply path_one_inv in Hok. apply path_one_inv in Herror.
  rewrite (userProfile_answered _ _ _ _ _ _ _ _ Hstored Hans).
  rewrite (profile_callback_not_ok done err res payload ok error body w')
    by assumption.
  rewrite Htruthy. reflexivity.
Qed.

(** C6. When [JSON.parse] throws on the body, the continuation is called
    with the thrown exception as its only argument. *)
Theorem userProfile_parse_failure (accessToken : val) (done : callback)
    (raw : val) (id token body : string) (err res e : val) (w w' : world) :
  stored_exchange w raw id token ->
  transport_answers w (profileUrl id token) [err; VStr body; res] w' ->
  truthy err = false ->
  JSON_parse body = Throw e ->
  userProfile accessToken done w = done [e] w'.
Proof.
  intros Hstored Hans Herr Hparse.
  rewrite (userProfile_answered _ _ _ _ _ _ _ _ Hstored Hans).
  apply profile_callback_parse_failure; assumption.
Qed.

(** *** Authorization parameters *)

(** [join] on an array of strings is [String.concat]. *)
Lemma Array_join_strings (l : list string) (sep : string) :
  Array_join (VStr <$> l) sep = Normal (String.concat sep l).
Proof.
  unfold Array_join. induction l as [|x r IH]; [reflexivity|].
  destruct r as [|y r']; [reflexivity|].
  change (join_with ToString sep (VStr <$> x :: y :: r'))
    with (completion_bind (join_with ToString sep (VStr <$> y :: r'))
            (fun sr => Normal (x +:+ sep +:+ sr))).
  rewrite IH. reflexivity.
Qed.

Lemma userScope_conversion (u : userScope) :
  match userScope_val u with
  | VArr elems =>
      completion_bind (Array_join elems " ") (fun s => Normal (VStr s))
  | _ => Normal (userScope_val u)
  end = Normal (match u with
                | ScopeUnset => VUndefined
                | _ => VStr (userScope_param u)
                end).
Proof.
  destruct u as [|s|l]; simpl; try reflexivity.
  rewrite Array_join_strings. reflexivity.
Qed.

(** C7. For a request-options object and a stored [userScope] that is
    unset, a string or a sequence of strings, [authorizationParams] returns
    an object and leaves the world as it was.  With "set" read as JavaScript
    reads it in [if (team)] (a truthy value): the object has [team] exactly
    when the request's [team] or the stored [_team] is set, the request's
    value first; it has [user_scope] exactly when the stored [userScope] is
    set, a sequence joined by single spaces and a string as it is; it has no
    other property. *)
Theorem authorizationParams_contents (options : gmap string val)
    (u : userScope) (w : world) :
  default VUndefined (this w !! "_user_scope") = userScope_val u ->
  exists params : gmap string val,
    authorizationParams (VObj options) w = (Normal (VObj params), w) /\
    params !! "team" =
      (if truthy (default VUndefined (options !! "team"))
       then Some (default VUndefined (options !! "team"))
       else if truthy (default VUndefined (this w !! "_team"))
            then Some (default VUndefined (this w !! "_team"))
            else None) /\
    params !! "user_scope" =
      (if truthy (userScope_val u)
       then Some (VStr (userScope_param u))
       else None) /\
    forall k : string, k <> "team" -> k <> "user_scope" -> params !! k = None.
Proof.
  intros Hscope.
  unfold authorizationParams, mbind, M_bind, lift, get_this. simpl.
  destruct (truthy (default VUndefined (options !! "team"))) eqn:Hot; simpl;
    rewrite Hscope, userScope_conversion;
    destruct (truthy (userScope_val u)) eqn:Hu;
    try (destruct u as [|s|l]; [discriminate Hu| |]);
    rewrite ?Hot;
    destruct (truthy (default VUndefined (this w !! "_team"))) eqn:Hst;
    (eexists; split; [reflexivity|];
     split; [map_lookup|]; split; [map_lookup|];
     intros k Hk1 Hk2; map_lookup).
Qed.

(** *** Construction *)

(** The constructor writes [tokenURL] and [authorizationURL] into the
    options and nothing else: the options that reach the base constructor
    hold the [scope] that was supplied, and none when none was. *)
Lemma Strategy_hands_scope_through (options : gmap string val)
    (verify : verify_fn) (w : world) :
  exists (options' : gmap string val) (w1 : world),
    Strategy (VObj options) verify w =
      (OAuth2Strategy (VObj options') verify;;
       name ← lift (get_prop (VObj options') "name");
       set_this "name" (js_or name (VStr "slack"))) w1 /\
    options' !! "scope" = options !! "scope".
Proof.
  eexists. eexists. split.
  - unfold Strategy, js_or. simpl. reflexivity.
  - map_lookup.
Qed.

(** *** Failures of the exchange and of the profile request *)

(** X1. When the client's token exchange reports an error, the continuation
    gets that error as its only argument, whatever else the client passed,
    and nothing is written to the instance: [this.params] stays what it
    was. *)
Theorem getOAuthAccessToken_failed_exchange (code params : val) (k : callback)
    (response : list val) (w w' : world) :
  exchange_answers w code params response w' ->
  truthy (arg 0 response) = true ->
  getOAuthAccessToken code params k w = k [arg 0 response] w'.
Proof.
  intros Hans Herr. unfold getOAuthAccessToken.
  rewrite (Hans (exchange_callback k)).
  apply exchange_callback_error. exact Herr.
Qed.

(** X2. When the transport reports an error, the continuation gets that
    error as its only argument; the body is not parsed, whatever it holds. *)
Theorem userProfile_transport_error (accessToken : val) (done : callback)
    (raw : val) (id token : string) (response : list val) (w w' : world) :
  stored_exchange w raw id token ->
  transport_answers w (profileUrl id token) response w' ->
  truthy (arg 0 response) = true ->
  userProfile accessToken done w = done [arg 0 response] w'.
Proof.
  intros Hstored Hans Herr.
  rewrite (userProfile_answered _ _ _ _ _ _ _ _ Hstored Hans).
  apply profile_callback_transport_error. exact Herr.
Qed.

(** X3. When [this.params] is unset, or holds a response whose
    [authed_user.id] cannot be read, [userProfile] throws out of the call:
    the transport is not asked and the continuation is not called. *)
Theorem userProfile_without_exchange (accessToken : val) (done : callback)
    (e : val) (w : world) :
  substitution (default VUndefined (this w !! "params"))
               ["authed_user"; "id"] = Throw e ->
  userProfile accessToken done w = (Throw e, w).
Proof.
  intros Hid. unfold substitution in Hid. simpl in Hid.
  unfold userProfile, mbind, M_bind, get_this, lift.
  destruct (get_prop (default VUndefined (this w !! "params")) "authed_user")
    as [authed_user|e1]; simpl in Hid.
  - destruct (get_prop authed_user "id") as [idv|e2]; simpl in Hid.
    + rewrite Hid. reflexivity.
    + congruence.
  - congruence.
Qed.

(** X4. A payload that is [null] (or anything whose [ok] cannot be read)
    makes the fetch fail: the continuation gets the TypeError of the read as
    its only argument. *)
Theorem userProfile_payload_unreadable (accessToken : val) (done : callback)
    (raw : val) (id token body : string) (err res payload e : val)
    (w w' : world) :
  stored_exchange w raw id token ->
  transport_answers w (profileUrl id token) [err; VStr body; res] w' ->
  truthy err = false ->
  JSON_parse body = Normal payload ->
  path payload ["ok"] = Throw e ->
  userProfile accessToken done w = done [e] w'.
Proof.
  intros Hstored Hans Herr Hparse Hok.
  rewrite (userProfile_answered _ _ _ _ _ _ _ _ Hstored Hans).
  simpl in Hok. unfold completion_bind in Hok.
  destruct (get_prop payload "ok") as [ok|e'] eqn:Hget; [discriminate Hok|].
  injection Hok as ->.
  unfold profile_callback, arg. simpl. rewrite Herr.
  unfold try_catch, mbind, M_bind, lift. simpl.
  rewrite Hparse, Hget. reflexivity.
Qed.

Lemma get_prop_Throw (v e : val) (k : string) :
  get_prop v k = Throw e -> exists message : string, e = TypeError message.
Proof.
  destruct v; simpl; intros Hk; try discriminate Hk;
    injection Hk as <-; eexists; reflexivity.
Qed.

Lemma get_prop_Normal_any (v r : val) (k k' : string) :
  get_prop v k = Normal r -> exists r' : val, get_prop v k' = Normal r'.
Proof.
  destruct v; simpl; intros Hk; try discriminate Hk; eexists; reflexivity.
Qed.

(** X5. An acknowledged payload ([ok] truthy) whose [user] or [user.profile]
    is missing makes the fetch fail: the continuation gets a TypeError as
    its only argument and no profile. *)
Theorem userProfile_ok_without_user (accessToken : val) (done : callback)
    (raw : val) (id token body : string) (err res ok e : val)
    (payload : gmap string val) (w w' : world) :
  stored_exchange w raw id token ->
  transport_answers w (profileUrl id token) [err; VStr body; res] w' ->
  truthy err = false ->
  JSON_parse body = Normal (VObj payload) ->
  payload !! "ok" = Some ok ->
  truthy ok = true ->
  path (VObj payload) ["user"; "profile"; "email"] = Throw e ->
  exists message : string,
    userProfile accessToken done w = done [TypeError message] w'.
Proof.
  intros Hstored Hans Herr Hparse Hok Htruthy Hemail.
  rewrite (userProfile_answered _ _ _ _ _ _ _ _ Hstored Hans).
  unfold profile_callback, arg. simpl. rewrite Herr.
  unfold try_catch, mbind, M_bind, lift. simpl.
  rewrite Hparse. simpl. rewrite Hok. simpl. rewrite Htruthy. simpl.
  rewrite lookup_insert_ne by discriminate.
  simpl in Hemail. unfold completion_bind in Hemail.
  set (user := default VUndefined (payload !! "user")) in *.
  destruct (get_prop user "id") as [idv|e1] eqn:Hid.
  - destruct (get_prop_Normal_any user idv "id" "real_name" Hid) as [rn Hrn].
    destruct (get_prop_Normal_any user idv "id" "profile" Hid) as [p Hp].
    rewrite Hp in Hemail.
    destruct (get_prop p "email") as [x|e2] eqn:He; [discriminate Hemail|].
    destruct (get_prop_Throw p e2 "email" He) as [message ->].
    exists message.
    rewrite !lookup_insert_ne by discriminate. fold user. rewrite Hrn.
    rewrite !lookup_insert_ne by discriminate. fold user. rewrite Hp, He.
    reflexivity.
  - destruct (get_prop_Throw user e1 "id" Hid) as [message ->].
    exists message. reflexivity.
Qed.

Lemma path_step (v v' : val) (k : string) (ks : list string) :
  get_prop v k = Normal v' -> path v (k :: ks) = path v' ks.
Proof. intros Hk. simpl. rewrite Hk. reflexivity. Qed.

(** X6. An unacknowledged payload whose [error] field holds a falsy value
    (the empty string, [null], [false], a falsy number) is passed on as a
    success, like one without the field. *)
Theorem userProfile_falsy_error_passes (accessToken : val) (done : callback)
    (raw : val) (id token body : string) (err res payload ok error : val)
    (w w' : world) :
  stored_exchange w raw id token ->
  transport_answers w (profileUrl id token) [err; VStr body; res] w' ->
  truthy err = false ->
  JSON_parse body = Normal payload ->
  path payload ["ok"] = Normal ok ->
  truthy ok = false ->
  path payload ["error"] = Normal error ->
  truthy error = false ->
  userProfile accessToken done w =
  try_catch (done [VNull; payload]) (fun e => done [e]) w'.
Proof.
  intros Hstored Hans Herr Hparse Hok Hfalsy Herror Hnone.
  apply path_one_inv in Hok. apply path_one_inv in Herror.
  rewrite (userProfile_answered _ _ _ _ _ _ _ _ Hstored Hans).
  rewrite (profile_callback_not_ok done err res payload ok error body w')
    by assumption.
  rewrite Hnone. reflexivity.
Qed.

(** X7. The continuation is called inside the [try] block: when it throws
    on the normalized profile, it is called a second time, with the
    exception it threw, in the world its first call left. *)
Theorem userProfile_continuation_throws (accessToken : val) (done : callback)
    (raw : val) (id token body : string)
    (err res ok uid real_name email e : val)
    (payload : gmap string val) (w w' w'' : world) :
  stored_exchange w raw id token ->
  transport_answers w (profileUrl id token) [err; VStr body; res] w' ->
  truthy err = false ->
  JSON_parse body = Normal (VObj payload) ->
  payload !! "ok" = Some ok ->
  truthy ok = true ->
  path (VObj payload) ["user"; "id"] = Normal uid ->
  path (VObj payload) ["user"; "real_name"] = Normal real_name ->
  path (VObj payload) ["user"; "profile"; "email"] = Normal email ->
  done [VNull; VObj (normalized_profile payload uid real_name email)] w' =
    (Throw e, w'') ->
  userProfile accessToken done w = done [e] w''.
Proof.
  intros Hstored Hans Herr Hparse Hok Htruthy Hid Hname Hemail Hthrow.
  rewrite (userProfile_answered _ _ _ _ _ _ _ _ Hstored Hans).
  rewrite (profile_callback_ok done err res ok uid real_name email payload)
    by assumption.
  unfold try_catch. fold (normalized_profile payload uid real_name email).
  rewrite Hthrow. reflexivity.
Qed.

(** *** Composition of the exchange and the profile request *)

(** X13. When the profile is loaded from inside the exchange's continuation,
    the request is made for the user and with the token of that very
    exchange, whatever [this.params] held before. *)
Theorem exchange_then_profile (code params : val) (done : callback)
    (err accessToken refreshToken raw : val) (id token : string)
    (w w' : world) :
  exchange_answers w code params [err; accessToken; refreshToken; raw] w' ->
  truthy err = false ->
  substitution raw ["authed_user"; "id"] = Normal id ->
  substitution raw ["access_token"] = Normal token ->
  getOAuthAccessToken code params
    (fun args => userProfile (arg 1 args) done) w =
  _request "GET" (profileUrl id token) (VObj ∅) "" "" (profile_callback done)
    (World (<["params" := raw]> (this w')) (trace w')).
Proof.
  intros Hans Herr Hid Htok. unfold getOAuthAccessToken.
  rewrite (Hans (exchange_callback _)).
  rewrite exchange_callback_success by exact Herr.
  destruct (substitution_inv _ _ _ Hid) as (idv & Hpath & _).
  apply path_cons_inv in Hpath as (authed_user & Hau & Hidv).
  apply path_one_inv in Hidv.
  destruct (get_prop_Normal_any authed_user idv "id" "access_token" Hidv)
    as [user_token Hut].
  rewrite (path_step raw authed_user "authed_user" ["access_token"] Hau).
  simpl. rewrite Hut. simpl.
  rewrite (userProfile_unfold _ done raw id token).
  - reflexivity.
  - split; [apply lookup_insert_eq|]. split; assumption.
Qed.

(** *** The constructor *)

Lemma Strategy_unfold (options : gmap string val) (verify : verify_fn)
    (w : world) :
  Strategy (VObj options) verify w =
  (OAuth2Strategy (VObj (constructed_options options)) verify;;
   set_this "name" (constructed_name options)) (before_base options w).
Proof.
  unfold Strategy, constructed_options, constructed_name, before_base.
  unfold mbind, M_bind, lift, set_this. simpl.
  rewrite !lookup_insert_ne by discriminate. reflexivity.
Qed.

(** X8. For an options object, the base constructor receives the options
    with [tokenURL] and [authorizationURL] filled in: the supplied value
    when it is truthy, Slack's endpoint otherwise.  Every other option
    reaches it as supplied, and [_team] and [_user_scope] are written on the
    instance before it runs. *)
Theorem Strategy_defaults (options : gmap string val) (verify : verify_fn)
    (w : world) :
  exists options' : gmap string val,
    Strategy (VObj options) verify w =
      (OAuth2Strategy (VObj options') verify;;
       set_this "name" (constructed_name options)) (before_base options w) /\
    options' !! "tokenURL" =
      Some (if truthy (default VUndefined (options !! "tokenURL"))
            then default VUndefined (options !! "tokenURL")
            else VStr "https://slack.com/api/oauth.v2.access") /\
    options' !! "authorizationURL" =
      Some (if truthy (default VUndefined (options !! "authorizationURL"))
            then default VUndefined (options !! "authorizationURL")
            else VStr "https://slack.com/oauth/v2/authorize") /\
    forall k : string,
      k <> "tokenURL" -> k <> "authorizationURL" ->
      options' !! k = options !! k.
Proof.
  exists (constructed_options options).
  split; [apply Strategy_unfold|]. unfold constructed_options, js_or.
  split; [map_lookup|]. split; [map_lookup|].
  intros k Hk1 Hk2. map_lookup.
Qed.


(** X10. When the base constructor throws (a missing [clientID], say), the
    constructor throws the same value and [name] is not set. *)
Theorem Strategy_base_failure (options : gmap string val)
    (verify : verify_fn) (e : val) (w w2 : world) :
  OAuth2Strategy (VObj (constructed_options options)) verify
    (before_base options w) = (Throw e, w2) ->
  Strategy (VObj options) verify w = (Throw e, w2).
Proof.
  intros Hbase. rewrite Strategy_unfold. unfold mbind, M_bind.
  rewrite Hbase. reflexivity.
Qed.

(** *** Authorization parameters, for any input *)

Lemma authorizationParams_eval (options : val) (w : world) :
  authorizationParams options w =
  match get_prop options "team" with
  | Throw e => (Throw e, w)
  | Normal options_team =>
      let team := js_or options_team (default VUndefined (this w !! "_team")) in
      let params : gmap string val :=
        if truthy team then <["team" := team]> ∅ else ∅ in
      let user_scope := default VUndefined (this w !! "_user_scope") in
      if truthy user_scope then
        match
          match user_scope with
          | VArr elems =>
              completion_bind (Array_join elems " ") (fun s => Normal (VStr s))
          | _ => Normal user_scope
          end
        with
        | Normal v => (Normal (VObj (<["user_scope" := v]> params)), w)
        | Throw e => (Throw e, w)
        end
      else (Normal (VObj params), w)
  end.
Proof.
  unfold authorizationParams, mbind, M_bind, lift, get_this, js_or.
  destruct (get_prop options "team") as [options_team|e]; [|reflexivity].
  simpl. destruct (truthy options_team) eqn:Hot; simpl;
    destruct (truthy (default VUndefined (this w !! "_user_scope")));
    try reflexivity;
    destruct (match default VUndefined (this w !! "_user_scope") with
              | VArr elems =>
                  completion_bind (Array_join elems " ")
                    (fun s => Normal (VStr s))
              | _ => Normal (default VUndefined (this w !! "_user_scope"))
              end); reflexivity.
Qed.

(** X11. Whatever the request options and the stored configuration,
    [authorizationParams] leaves the instance as it was, also when it
    throws; and when it returns, it returns an object that has no property
    but [team] and [user_scope], with a [team] that is never falsy. *)
Theorem authorizationParams_shape (options : val) (w : world) :
  (authorizationParams options w).2 = w /\
  forall v : val,
    (authorizationParams options w).1 = Normal v ->
    exists params : gmap string val,
      v = VObj params /\
      (forall k : string,
         is_Some (params !! k) -> k = "team" \/ k = "user_scope") /\
      (forall team : val, params !! "team" = Some team -> truthy team = true).
Proof.
  rewrite authorizationParams_eval.
  destruct (get_prop options "team") as [options_team|e];
    [|split; [reflexivity | intros v Hv; discriminate Hv]].
  cbv zeta.
  set (team := js_or options_team (default VUndefined (this w !! "_team"))).
  set (user_scope := default VUndefined (this w !! "_user_scope")).
  assert (forall k : string,
            is_Some ((if truthy team then <["team" := team]> ∅ else ∅
                      : gmap string val) !! k) -> k = "team") as Hteam_only.
  { intros k [x Hx]. destruct (truthy team).
    - destruct (decide (k = "team")) as [->|Hne]; [reflexivity|].
      rewrite lookup_insert_ne, lookup_empty in Hx by congruence.
      discriminate Hx.
    - rewrite lookup_empty in Hx. discriminate Hx. }
  assert (forall t : val,
            (if truthy team then <["team" := team]> ∅ else ∅
             : gmap string val) !! "team" = Some t -> truthy t = true)
    as Hteam_truthy.
  { intros t Ht. destruct (truthy team) eqn:Htruthy.
    - rewrite lookup_insert_eq in Ht. congruence.
    - rewrite lookup_empty in Ht. discriminate Ht. }
  destruct (truthy user_scope).
  - destruct (match user_scope with
              | VArr elems =>
                  completion_bind (Array_join elems " ")
                    (fun s => Normal (VStr s))
              | _ => Normal user_scope
              end) as [x|e];
      (split; [reflexivity|]); intros v Hv; simpl in Hv;
      [|discriminate Hv].
    injection Hv as <-. eexists. split; [reflexivity|]. split.
    + intros k Hk. destruct (decide (k = "user_scope")) as [->|Hne];
        [right; reflexivity|].
      rewrite lookup_insert_ne in Hk by congruence.
      left. apply Hteam_only. exact Hk.
    + intros t Ht. rewrite lookup_insert_ne in Ht by discriminate.
      apply Hteam_truthy. exact Ht.
  - split; [reflexivity|]. intros v Hv. simpl in Hv. injection Hv as <-.
    eexists. split; [reflexivity|]. split.
    + intros k Hk. left. apply Hteam_only. exact Hk.
    + exact Hteam_truthy.
Qed.

(** X12. Construction and authorization compose: when the base constructor
    returns and leaves [_team] and [_user_scope] as the constructor wrote
    them, the [team] and [user_scope] options given at construction are the
    ones every later authorization request carries, unless the request
    names a team of its own. *)
Theorem Strategy_then_authorizationParams (options request : gmap string val)
    (verify : verify_fn) (u : userScope) (w w2 : world) :
  OAuth2Strategy (VObj (constructed_options options)) verify
    (before_base options w) = (Normal tt, w2) ->
  this w2 !! "_team" = this (before_base options w) !! "_team" ->
  this w2 !! "_user_scope" = this (before_base options w) !! "_user_scope" ->
  default VUndefined (options !! "user_scope") = userScope_val u ->
  exists (wf : world) (params : gmap string val),
    Strategy (VObj options) verify w = (Normal tt, wf) /\
    authorizationParams (VObj request) wf = (Normal (VObj params), wf) /\
    params !! "team" =
      (if truthy (default VUndefined (request !! "team"))
       then Some (default VUndefined (request !! "team"))
       else if truthy (default VUndefined (options !! "team"))
            then Some (default VUndefined (options !! "team"))
            else None) /\
    params !! "user_scope" =
      (if truthy (userScope_val u)
       then Some (VStr (userScope_param u))
       else None).
Proof.
  intros Hbase Hteam Hscope Hu.
  exists (World (<["name" := constructed_name options]> (this w2)) (trace w2)).
  assert (default VUndefined
            (<["name" := constructed_name options]> (this w2) !! "_team") =
          default VUndefined (options !! "team")) as Hteam'.
  { rewrite lookup_insert_ne, Hteam by discriminate.
    unfold before_base. simpl. map_lookup. }
  assert (default VUndefined
            (<["name" := constructed_name options]> (this w2) !! "_user_scope") =
          userScope_val u) as Hscope'.
  { rewrite lookup_insert_ne, Hscope by discriminate.
    unfold before_base. simpl. rewrite lookup_insert_eq. exact Hu. }
  rewrite authorizationParams_eval. simpl.
  rewrite Hteam', Hscope', userScope_conversion. unfold js_or.
  destruct (truthy (default VUndefined (request !! "team"))) eqn:Hrt;
    destruct (truthy (userScope_val u)) eqn:Htu;
    try (destruct u as [|s|l]; [discriminate Htu| |]);
    rewrite ?Hrt;
    destruct (truthy (default VUndefined (options !! "team"))) eqn:Hot;
    (eexists; split;
     [ rewrite Strategy_unfold; unfold mbind, M_bind; rewrite Hbase;
       reflexivity
     | split; [reflexivity|]; split; map_lookup ]).
Qed.

(** X14. A whole login: when the exchange succeeds, the profile is loaded
    from inside its continuation and [users.info] answers with an
    acknowledged payload, the login ends with the continuation called on
    [null] and the normalized profile of that payload. *)
Theorem login_delivers_profile (code params : val) (done : callback)
    (err accessToken refreshToken raw : val) (id token body : string)
    (terr res ok uid real_name email : val) (payload : gmap string val)
    (w w1 w2 : world) :
  exchange_answers w code params [err; accessToken; refreshToken; raw] w1 ->
  truthy err = false ->
  substitution raw ["authed_user"; "id"] = Normal id ->
  substitution raw ["access_token"] = Normal token ->
  transport_answers (World (<["params" := raw]> (this w1)) (trace w1))
    (profileUrl id token) [terr; VStr body; res] w2 ->
  truthy terr = false ->
  JSON_parse body = Normal (VObj payload) ->
  payload !! "ok" = Some ok ->
  truthy ok = true ->
  path (VObj payload) ["user"; "id"] = Normal uid ->
  path (VObj payload) ["user"; "real_name"] = Normal real_name ->
  path (VObj payload) ["user"; "profile"; "email"] = Normal email ->
  getOAuthAccessToken code params
    (fun args => userProfile (arg 1 args) done) w =
  try_catch
    (done [VNull; VObj (normalized_profile payload uid real_name email)])
    (fun e => done [e]) w2.
Proof.
  intros Hans Herr Hid Htok Htrans Hterr Hparse Hok Htruthy Huid Hname Hemail.
  unfold getOAuthAccessToken. rewrite (Hans (exchange_callback _)).
  rewrite exchange_callback_success by exact Herr.
  destruct (substitution_inv _ _ _ Hid) as (idv & Hpath & _).
  apply path_cons_inv in Hpath as (authed_user & Hau & Hidv).
  apply path_one_inv in Hidv.
  destruct (get_prop_Normal_any authed_user idv "id" "access_token" Hidv)
    as [user_token Hut].
  rewrite (path_step raw authed_user "authed_user" ["access_token"] Hau).
  simpl. rewrite Hut. simpl.
  rewrite (userProfile_answered _ done raw id token
             [terr; VStr body; res] _ w2).
  - apply (profile_callback_ok done terr res ok uid real_name email payload);
      assumption.
  - split; [apply lookup_insert_eq|]. split; assumption.
  - exact Htrans.
Qed.

End Properties.

(** ** Worked scenarios *)

Section Scenarios.
Local Existing Instance Z_number.

(** The end-to-end scenario: the exchange delivers the user token, the
    profile is fetched with the workspace token and normalized. *)
Example end_to_end_exchange :
  getOAuthAccessToken (host := host_Ada) (VStr "code-1") (VObj ∅)
    (record "callback") fresh =
  (Normal tt,
   World {[ "params" := raw_U1 ]}
         [Call "getOAuthAccessToken" [VStr "code-1"; VObj ∅];
          Call "callback" [VNull; VStr "user-1"; VUndefined; raw_U1]]).
Proof. reflexivity. Qed.

Example end_to_end_profile :
  userProfile (host := host_Ada) (VStr "user-1") (record "done")
    (after_exchange raw_U1) =
  (Normal tt,
   World {[ "params" := raw_U1 ]}
         [Call "_request"
            [VStr "GET";
             VStr "https://slack.com/api/users.info?user=U1&token=bot-1";
             VObj ∅; VStr ""; VStr ""];
          Call "done"
            [VNull;
             VObj (<["provider" := VStr "Slack"]>
                     (<["id" := VStr "U1"]>
                        (<["displayName" := VStr "Ada"]>
                           (<["email" := VStr "a@x.com"]> payload_Ada))))]]).
Proof. reflexivity. Qed.

Example error_scenario :
  userProfile (host := host_not_found) (VStr "user-1") (record "done")
    (after_exchange raw_U1) =
  record "done" [VStr "user_not_found"] (after_request raw_U1 "U1" "bot-1").
Proof. reflexivity. Qed.

(** A failed exchange is handed on as it is, and nothing is stored. *)
Example exchange_error_scenario :
  getOAuthAccessToken (host := host_Ada) (VStr "code-9") (VObj ∅)
    (record "callback") fresh =
  (Normal tt,
   World ∅
         [Call "getOAuthAccessToken" [VStr "code-9"; VObj ∅];
          Call "callback" [VError "Error" "invalid_code"]]).
Proof. reflexivity. Qed.

Example user_scope_sequence :
  authorizationParams (VObj ∅)
    (World {[ "_user_scope" := VArr [VStr "a"; VStr "b"] ]} []) =
  (Normal (VObj {[ "user_scope" := VStr "a b" ]}),
   World {[ "_user_scope" := VArr [VStr "a"; VStr "b"] ]} []).
Proof. reflexivity. Qed.

Example user_scope_string :
  authorizationParams (VObj ∅)
    (World {[ "_user_scope" := VStr "a b" ]} []) =
  (Normal (VObj {[ "user_scope" := VStr "a b" ]}),
   World {[ "_user_scope" := VStr "a b" ]} []).
Proof. reflexivity. Qed.

Example no_team_no_key :
  authorizationParams (VObj ∅) fresh =
  (Normal (VObj ∅), fresh).
Proof. reflexivity. Qed.

(** C1, at the end-to-end scenario. *)
Lemma getOAuthAccessToken_delivers_user_token_witness :
  getOAuthAccessToken (host := host_Ada) (VStr "code-1") (VObj ∅)
    (record "callback") fresh =
  record "callback" [VNull; VStr "user-1"; VUndefined; raw_U1]
    (World (<["params" := raw_U1]> ∅)
           [Call "getOAuthAccessToken" [VStr "code-1"; VObj ∅]]).
Proof.
  apply (getOAuthAccessToken_delivers_user_token (host := host_Ada)
           (VStr "code-1") (VObj ∅) (record "callback")
           VNull (VStr "bot-1") VUndefined raw_U1 fresh
           (World ∅ [Call "getOAuthAccessToken" [VStr "code-1"; VObj ∅]])).
  - intros k. reflexivity.
  - reflexivity.
Defined.

(** C2, at the end-to-end scenario. *)
Lemma userProfile_request_url_witness :
  userProfile (host := host_Ada) (VStr "user-1") (record "done")
    (after_exchange raw_U1) =
  _request (Host := host_Ada) "GET"
    "https://slack.com/api/users.info?user=U1&token=bot-1"
    (VObj ∅) "" ""
    (profile_callback (host := host_Ada) (record "done"))
    (after_exchange raw_U1).
Proof.
  apply (userProfile_request_url (host := host_Ada) (VStr "user-1")
           (record "done") raw_U1 "U1" "bot-1" (after_exchange raw_U1)).
  - vm_compute. reflexivity.
  - vm_compute. reflexivity.
  - vm_compute. reflexivity.
Defined.

Lemma stored_exchange_U1 :
  stored_exchange (after_exchange raw_U1) raw_U1 "U1" "bot-1".
Proof. repeat split; vm_compute; reflexivity. Defined.

Lemma answering_answers (body : string) (parsed : completion val)
    (raw : val) (id token : string) :
  transport_answers (host := answering body parsed) (after_exchange raw)
    (profileUrl id token) [VNull; VStr body; VUndefined]
    (after_request raw id token).
Proof. intros k. reflexivity. Defined.

(** C3, at a payload with [ok: false] and a [warning] field only. *)
Lemma userProfile_not_ok_without_error_witness :
  userProfile (host := host_not_ok) (VStr "user-1") (record "done")
    (after_exchange raw_U1) =
  try_catch (record "done" [VNull; VObj payload_not_ok])
            (fun e => record "done" [e]) (after_request raw_U1 "U1" "bot-1").
Proof.
  apply (userProfile_not_ok_without_error (host := host_not_ok)
           (VStr "user-1") (record "done") raw_U1 "U1" "bot-1" body_not_ok
           VNull VUndefined (VObj payload_not_ok) (VBool false)).
  - apply stored_exchange_U1.
  - apply answering_answers.
  - reflexivity.
  - vm_compute. reflexivity.
  - vm_compute. reflexivity.
  - reflexivity.
  - vm_compute. reflexivity.
Defined.

(** C4, at the end-to-end scenario. *)
Lemma userProfile_normalized_profile_witness :
  exists profile : gmap string val,
    userProfile (host := host_Ada) (VStr "user-1") (record "done")
      (after_exchange raw_U1) =
      try_catch (record "done" [VNull; VObj profile])
                (fun e => record "done" [e])
                (after_request raw_U1 "U1" "bot-1") /\
    profile !! "provider" = Some (VStr "Slack") /\
    profile !! "id" = Some (VStr "U1") /\
    profile !! "displayName" = Some (VStr "Ada") /\
    profile !! "email" = Some (VStr "a@x.com") /\
    forall k : string,
      k ∉ ["provider"; "id"; "displayName"; "email"] ->
      profile !! k = payload_Ada !! k.
Proof.
  apply (userProfile_normalized_profile (host := host_Ada)
           (VStr "user-1") (record "done") raw_U1 "U1" "bot-1" body_Ada
           VNull VUndefined (VBool true) (VStr "U1") (VStr "Ada")
           (VStr "a@x.com") payload_Ada).
  - apply stored_exchange_U1.
  - apply answering_answers.
  - reflexivity.
  - vm_compute. reflexivity.
  - vm_compute. reflexivity.
  - reflexivity.
  - vm_compute. reflexivity.
  - vm_compute. reflexivity.
  - vm_compute. reflexivity.
Defined.

(** C4 as stated fails: a payload with [ok: true] and no [user] parses, yet
    the continuation gets no profile.  Reading [user.id] throws inside the
    [try] block, and the continuation is called with that TypeError alone. *)
Lemma userProfile_ok_true_without_user_counterexample :
  JSON_parse (Host := host_no_user) body_no_user =
    Normal (VObj payload_no_user) /\
  payload_no_user !! "ok" = Some (VBool true) /\
  userProfile (host := host_no_user) (VStr "user-1") (record "done")
    (after_exchange raw_U1) =
  record "done"
    [TypeError "Cannot read properties of undefined (reading 'id')"]
    (after_request raw_U1 "U1" "bot-1") /\
  forall profile : gmap string val,
    userProfile (host := host_no_user) (VStr "user-1") (record "done")
      (after_exchange raw_U1) <>
    try_catch (record "done" [VNull; VObj profile])
              (fun e => record "done" [e])
              (after_request raw_U1 "U1" "bot-1").
Proof.
  assert (userProfile (host := host_no_user) (VStr "user-1") (record "done")
            (after_exchange raw_U1) =
          record "done"
            [TypeError "Cannot read properties of undefined (reading 'id')"]
            (after_request raw_U1 "U1" "bot-1")) as Hrun by reflexivity.
  split; [reflexivity|]. split; [reflexivity|]. split; [exact Hrun|].
  intros profile Heq. rewrite Hrun in Heq.
  apply (f_equal (fun r => trace r.2)) in Heq.
  unfold record, emit, try_catch, after_request in Heq.
  cbn [trace snd app] in Heq.
  injection Heq as Heq. discriminate Heq.
Qed.

(** C5 as stated fails: an [error] field that is present and empty does not
    make the fetch fail.  The continuation gets [null] and the payload, not
    the field's value. *)
Lemma userProfile_empty_error_counterexample :
  JSON_parse (Host := host_empty_error) body_empty_error =
    Normal (VObj payload_empty_error) /\
  payload_empty_error !! "ok" = Some (VBool false) /\
  payload_empty_error !! "error" = Some (VStr "") /\
  userProfile (host := host_empty_error) (VStr "user-1") (record "done")
    (after_exchange raw_U1) =
  record "done" [VNull; VObj payload_empty_error]
    (after_request raw_U1 "U1" "bot-1") /\
  userProfile (host := host_empty_error) (VStr "user-1") (record "done")
    (after_exchange raw_U1) <>
  try_catch (record "done" [VStr ""]) (fun e => record "done" [e])
    (after_request raw_U1 "U1" "bot-1").
Proof.
  split; [vm_compute; reflexivity|].
  split; [vm_compute; reflexivity|].
  split; [vm_compute; reflexivity|].
  split; [vm_compute; reflexivity|].
  vm_compute. intros Heq. discriminate Heq.
Qed.

(** C5 as amended, at the error scenario. *)
Lemma userProfile_not_ok_with_error_witness :
  userProfile (host := host_not_found) (VStr "user-1") (record "done")
    (after_exchange raw_U1) =
  try_catch (record "done" [VStr "user_not_found"])
            (fun e => record "done" [e]) (after_request raw_U1 "U1" "bot-1").
Proof.
  apply (userProfile_not_ok_with_error (host := host_not_found)
           (VStr "user-1") (record "done") raw_U1 "U1" "bot-1" body_not_found
           VNull VUndefined (VObj payload_not_found) (VBool false)
           (VStr "user_not_found")).
  - apply stored_exchange_U1.
  - apply answering_answers.
  - reflexivity.
  - vm_compute. reflexivity.
  - vm_compute. reflexivity.
  - reflexivity.
  - vm_compute. reflexivity.
  - reflexivity.
Defined.

(** C6, at a body that is a web page. *)
Lemma userProfile_parse_failure_witness :
  userProfile (host := host_html) (VStr "user-1") (record "done")
    (after_exchange raw_U1) =
  record "done" [SyntaxError] (after_request raw_U1 "U1" "bot-1").
Proof.
  apply (userProfile_parse_failure (host := host_html)
           (VStr "user-1") (record "done") raw_U1 "U1" "bot-1" body_html
           VNull VUndefined SyntaxError).
  - apply stored_exchange_U1.
  - apply answering_answers.
  - reflexivity.
  - vm_compute. reflexivity.
Defined.

(** C7, at a request that names a team while the configuration names
    another and stores a sequence of two user scopes. *)
Lemma authorizationParams_contents_witness :
  exists params : gmap string val,
    authorizationParams (VObj {[ "team" := VStr "T1" ]})
      (World {[ "_team" := VStr "T0";
                "_user_scope" := VArr [VStr "a"; VStr "b"] ]} []) =
      (Normal (VObj params),
       World {[ "_team" := VStr "T0";
                "_user_scope" := VArr [VStr "a"; VStr "b"] ]} []) /\
    params !! "team" = Some (VStr "T1") /\
    params !! "user_scope" = Some (VStr "a b") /\
    forall k : string, k <> "team" -> k <> "user_scope" -> params !! k = None.
Proof.
  destruct (authorizationParams_contents
              {[ "team" := VStr "T1" ]} (ScopeList ["a"; "b"])
              (World {[ "_team" := VStr "T0";
                        "_user_scope" := VArr [VStr "a"; VStr "b"] ]} []))
    as (params & Hrun & Hteam & Hscope & Hrest).
  - vm_compute. reflexivity.
  - exists params. split; [exact Hrun|].
    split; [exact Hteam|]. split; [exact Hscope | exact Hrest].
Defined.

(** C8. Constructed from options that name no [scope], the strategy hands
    the base constructor options that still have none: reading [scope]
    gives [undefined], not the four documented default scopes. *)
Theorem Strategy_applies_no_default_scope :
  let options :=
    <["authorizationURL" := VStr "https://slack.com/oauth/v2/authorize"]>
      (<["tokenURL" := VStr "https://slack.com/api/oauth.v2.access"]>
         options_without_scope) in
  Strategy (host := host_Ada) (VObj options_without_scope) tt fresh =
    (Normal tt,
     World {[ "_team" := VUndefined; "_user_scope" := VUndefined;
              "name" := VStr "slack" ]}
           [Call "OAuth2Strategy" [VObj options]]) /\
  options !! "scope" = None /\
  get_prop (VObj options) "scope" = Normal VUndefined /\
  VUndefined <> documented_default_scope.
Proof.
  split; [vm_compute; reflexivity|].
  split; [vm_compute; reflexivity|].
  split; [vm_compute; reflexivity|].
  discriminate.
Qed.

(** C9. Two logins share the instance; the second exchange completes
    between the first exchange and the first login's profile fetch.  The
    first login, whose callback received [user-1] and the response of [U1],
    then asks [users.info] for the user [U2] with the token [bot-2]: it
    reads the response that the second exchange stored. *)
Theorem overlapping_logins_share_params :
  overlapping_logins (host := host_not_found) fresh =
  (Normal tt,
   World {[ "params" := raw_U2 ]}
         [Call "getOAuthAccessToken" [VStr "code-1"; VObj ∅];
          Call "callback 1" [VNull; VStr "user-1"; VUndefined; raw_U1];
          Call "getOAuthAccessToken" [VStr "code-2"; VObj ∅];
          Call "callback 2" [VNull; VStr "user-2"; VUndefined; raw_U2];
          Call "_request"
            [VStr "GET";
             VStr "https://slack.com/api/users.info?user=U2&token=bot-2";
             VObj ∅; VStr ""; VStr ""];
          Call "done 1" [VStr "user_not_found"]]).
Proof. vm_compute. reflexivity. Qed.

(** *** Witnesses of the further properties *)

Lemma getOAuthAccessToken_failed_exchange_witness :
  getOAuthAccessToken (host := host_Ada) (VStr "code-9") (VObj ∅)
    (record "callback") fresh =
  record "callback" [VError "Error" "invalid_code"]
    (World ∅ [Call "getOAuthAccessToken" [VStr "code-9"; VObj ∅]]).
Proof.
  apply (getOAuthAccessToken_failed_exchange (host := host_Ada)
           (VStr "code-9") (VObj ∅) (record "callback")
           [VError "Error" "invalid_code"] fresh
           (World ∅ [Call "getOAuthAccessToken" [VStr "code-9"; VObj ∅]])).
  - intros k. reflexivity.
  - reflexivity.
Defined.

Lemma userProfile_transport_error_witness :
  userProfile (host := host_offline) (VStr "user-1") (record "done")
    (after_exchange raw_U1) =
  record "done" [ECONNRESET] (after_request raw_U1 "U1" "bot-1").
Proof.
  apply (userProfile_transport_error (host := host_offline)
           (VStr "user-1") (record "done") raw_U1 "U1" "bot-1"
           [ECONNRESET; VStr body_Ada; VUndefined]).
  - apply stored_exchange_U1.
  - intros k. reflexivity.
  - reflexivity.
Defined.

Lemma userProfile_without_exchange_witness :
  userProfile (host := host_Ada) (VStr "user-1") (record "done") fresh =
  (Throw (TypeError
            "Cannot read properties of undefined (reading 'authed_user')"),
   fresh).
Proof.
  apply (userProfile_without_exchange (host := host_Ada)
           (VStr "user-1") (record "done")
           (TypeError
              "Cannot read properties of undefined (reading 'authed_user')")
           fresh).
  reflexivity.
Defined.

Lemma userProfile_payload_unreadable_witness :
  userProfile (host := host_null) (VStr "user-1") (record "done")
    (after_exchange raw_U1) =
  record "done" [TypeError "Cannot read properties of null (reading 'ok')"]
    (after_request raw_U1 "U1" "bot-1").
Proof.
  apply (userProfile_payload_unreadable (host := host_null)
           (VStr "user-1") (record "done") raw_U1 "U1" "bot-1" "null"
           VNull VUndefined VNull).
  - apply stored_exchange_U1.
  - apply answering_answers.
  - reflexivity.
  - reflexivity.
  - reflexivity.
Defined.

Lemma userProfile_ok_without_user_witness :
  exists message : string,
    userProfile (host := host_no_user) (VStr "user-1") (record "done")
      (after_exchange raw_U1) =
    record "done" [TypeError message] (after_request raw_U1 "U1" "bot-1").
Proof.
  apply (userProfile_ok_without_user (host := host_no_user)
           (VStr "user-1") (record "done") raw_U1 "U1" "bot-1" body_no_user
           VNull VUndefined (VBool true)
           (TypeError "Cannot read properties of undefined (reading 'profile')")
           payload_no_user).
  - apply stored_exchange_U1.
  - apply answering_answers.
  - reflexivity.
  - reflexivity.
  - reflexivity.
  - reflexivity.
  - reflexivity.
Defined.

Lemma userProfile_falsy_error_passes_witness :
  userProfile (host := host_empty_error) (VStr "user-1") (record "done")
    (after_exchange raw_U1) =
  try_catch (record "done" [VNull; VObj payload_empty_error])
            (fun e => record "done" [e]) (after_request raw_U1 "U1" "bot-1").
Proof.
  apply (userProfile_falsy_error_passes (host := host_empty_error)
           (VStr "user-1") (record "done") raw_U1 "U1" "bot-1"
           body_empty_error VNull VUndefined (VObj payload_empty_error)
           (VBool false) (VStr "")).
  - apply stored_exchange_U1.
  - apply answering_answers.
  - reflexivity.
  - reflexivity.
  - reflexivity.
  - reflexivity.
  - reflexivity.
  - reflexivity.
Defined.

Lemma userProfile_continuation_throws_witness :
  userProfile (host := host_Ada) (VStr "user-1") (fussy "done")
    (after_exchange raw_U1) =
  fussy "done" [verify_failed]
    (World {[ "params" := raw_U1 ]}
       [Call "_request" [VStr "GET"; VStr (profileUrl "U1" "bot-1");
                         VObj ∅; VStr ""; VStr ""];
        Call "done"
          [VNull;
           VObj (normalized_profile payload_Ada (VStr "U1") (VStr "Ada")
                   (VStr "a@x.com"))]]).
Proof.
  apply (userProfile_continuation_throws (host := host_Ada)
           (VStr "user-1") (fussy "done") raw_U1 "U1" "bot-1" body_Ada
           VNull VUndefined (VBool true) (VStr "U1") (VStr "Ada")
           (VStr "a@x.com") verify_failed payload_Ada
           (after_exchange raw_U1) (after_request raw_U1 "U1" "bot-1")).
  - apply stored_exchange_U1.
  - apply answering_answers.
  - reflexivity.
  - reflexivity.
  - reflexivity.
  - reflexivity.
  - reflexivity.
  - reflexivity.
  - reflexivity.
  - reflexivity.
Defined.


Lemma Strategy_base_failure_witness :
  Strategy (host := host_strict) (VObj ∅) tt fresh =
  (Throw clientID_required, before_base ∅ fresh).
Proof.
  apply (Strategy_base_failure (host := host_strict) ∅ tt
           clientID_required fresh (before_base ∅ fresh)).
  reflexivity.
Defined.

Lemma Strategy_then_authorizationParams_witness :
  exists (wf : world) (params : gmap string val),
    Strategy (host := host_Ada) (VObj options_team) tt fresh =
      (Normal tt, wf) /\
    authorizationParams (VObj ∅) wf = (Normal (VObj params), wf) /\
    params !! "team" = Some (VStr "T0") /\
    params !! "user_scope" = Some (VStr "identity.basic identity.email").
Proof.
  destruct (Strategy_then_authorizationParams (host := host_Ada)
              options_team ∅ tt
              (ScopeList ["identity.basic"; "identity.email"]) fresh
              (World (this (before_base options_team fresh))
                 [Call "OAuth2Strategy"
                    [VObj (constructed_options options_team)]]))
    as (wf & params & Hrun & Hauth & Hteam & Hscope).
  - reflexivity.
  - reflexivity.
  - reflexivity.
  - reflexivity.
  - exists wf, params. split; [exact Hrun|]. split; [exact Hauth|].
    split; [exact Hteam | exact Hscope].
Defined.

Lemma exchange_U1_answers (w : world) :
  exchange_answers (host := host_Ada) w (VStr "code-1") (VObj ∅)
    [VNull; VStr "bot-1"; VUndefined; raw_U1]
    (World (this w)
       (trace w ++ [Call "getOAuthAccessToken" [VStr "code-1"; VObj ∅]])).
Proof. intros k. reflexivity. Defined.

Lemma exchange_then_profile_witness :
  getOAuthAccessToken (host := host_Ada) (VStr "code-1") (VObj ∅)
    (fun args => userProfile (host := host_Ada) (arg 1 args) (record "done"))
    (after_exchange raw_U2) =
  _request (Host := host_Ada) "GET" (profileUrl "U1" "bot-1") (VObj ∅) "" ""
    (profile_callback (host := host_Ada) (record "done"))
    (World (<["params" := raw_U1]> {[ "params" := raw_U2 ]})
       [Call "getOAuthAccessToken" [VStr "code-1"; VObj ∅]]).
Proof.
  exact (exchange_then_profile (host := host_Ada) (VStr "code-1") (VObj ∅)
           (record "done") VNull (VStr "bot-1") VUndefined raw_U1
           "U1" "bot-1" (after_exchange raw_U2) _
           (exchange_U1_answers (after_exchange raw_U2))
           eq_refl eq_refl eq_refl).
Defined.

Lemma login_delivers_profile_witness :
  getOAuthAccessToken (host := host_Ada) (VStr "code-1") (VObj ∅)
    (fun args => userProfile (host := host_Ada) (arg 1 args) (record "done"))
    fresh =
  try_catch
    (record "done"
       [VNull;
        VObj (normalized_profile payload_Ada (VStr "U1") (VStr "Ada")
                (VStr "a@x.com"))])
    (fun e => record "done" [e])
    (World (<["params" := raw_U1]> ∅)
       [Call "getOAuthAccessToken" [VStr "code-1"; VObj ∅];
        Call "_request" [VStr "GET"; VStr (profileUrl "U1" "bot-1");
                         VObj ∅; VStr ""; VStr ""]]).
Proof.
  assert (transport_answers (host := host_Ada)
            (World (<["params" := raw_U1]> ∅)
               [Call "getOAuthAccessToken" [VStr "code-1"; VObj ∅]])
            (profileUrl "U1" "bot-1") [VNull; VStr body_Ada; VUndefined]
            (World (<["params" := raw_U1]> ∅)
               [Call "getOAuthAccessToken" [VStr "code-1"; VObj ∅];
                Call "_request" [VStr "GET"; VStr (profileUrl "U1" "bot-1");
                                 VObj ∅; VStr ""; VStr ""]]))
    as Htransport by (intros k; reflexivity).
  exact (login_delivers_profile (host := host_Ada) (VStr "code-1") (VObj ∅)
           (record "done") VNull (VStr "bot-1") VUndefined raw_U1
           "U1" "bot-1" body_Ada VNull VUndefined (VBool true)
           (VStr "U1") (VStr "Ada") (VStr "a@x.com") payload_Ada fresh _ _
           (exchange_U1_answers fresh) eq_refl eq_refl eq_refl
           Htransport eq_refl eq_refl eq_refl eq_refl eq_refl eq_refl eq_refl).
Defined.

End Scenarios.
